(** * DetectorClocksStandard: the electronics clocks of a LArTPC detector

    A shallow embedding of [detinfo::DetectorClocksStandard]
    (lardataalg/DetectorInfo/DetectorClocksStandard.h) and of the part of
    [detinfo::ElecClock] it relies on.

    Every quantity of the provider is a C++ [double].  The embedding is
    written once over an interface [Arith] of the arithmetic the code uses
    and is read at two instances:
    - [Double]: IEEE 754 binary64, the kernel's primitive floats.  This is
      what the compiled code computes.
    - [Exact]: the rationals [Qc], i.e. the same formulas without rounding.
      Every finite [double] is a rational and the code only adds, subtracts,
      multiplies and divides, so this is the "up to rounding" reading. *)

From Stdlib Require Import ZArith QArith Qcanon Field Floats.
From stdpp Require Import gmap strings list.

(** ** The arithmetic of the code *)

Class Arith (F : Type) : Type := {
  d0 : F;                       (* the literal 0 *)
  d1 : F;                       (* the literal 1. *)
  d1em3 : F;                    (* the literal 1.e-3 *)
  dadd : F -> F -> F;
  dsub : F -> F -> F;
  dmul : F -> F -> F;
  ddiv : F -> F -> F;
  dopp : F -> F;
  dlt : F -> F -> bool;         (* operator< *)
  deq : F -> F -> bool;         (* operator== *)
  of_int : Z -> F               (* integer to double conversion *)
}.

Declare Scope dbl_scope.
Delimit Scope dbl_scope with D.
Notation "x + y" := (dadd x y) : dbl_scope.
Notation "x - y" := (dsub x y) : dbl_scope.
Notation "x * y" := (dmul x y) : dbl_scope.
Notation "x / y" := (ddiv x y) : dbl_scope.
Notation "- x" := (dopp x) : dbl_scope.
Notation "x <? y" := (dlt x y) : dbl_scope.
Notation "x =? y" := (deq x y) : dbl_scope.

(** Conversion of an integer to the nearest binary64 value (ties to even),
    as the C++ conversion does. *)
Definition double_of_Z (z : Z) : float :=
  SF2Prim (binary_normalize prec emax z 0 false).

(** binary64.  [0x1.0624dd2f1a9fcp-10] is the [double] nearest to 1.e-3,
    the value a C++ compiler gives that literal. *)
#[export] Instance Double : Arith float := {|
  d0 := 0%float;
  d1 := 1%float;
  d1em3 := 0x1.0624dd2f1a9fcp-10%float;
  dadd := PrimFloat.add;
  dsub := PrimFloat.sub;
  dmul := PrimFloat.mul;
  ddiv := PrimFloat.div;
  dopp := PrimFloat.opp;
  dlt := PrimFloat.ltb;
  deq := PrimFloat.eqb;
  of_int := double_of_Z
|}.

(** The same operations without rounding. *)
#[export] Instance Exact : Arith Qc := {|
  d0 := Q2Qc 0;
  d1 := Q2Qc 1;
  d1em3 := Q2Qc (1 # 1000);
  dadd := Qcplus;
  dsub := Qcminus;
  dmul := Qcmult;
  ddiv := Qcdiv;
  dopp := Qcopp;
  dlt := fun x y => bool_decide (x < y)%Qc;
  deq := fun x y => bool_decide (x = y);
  of_int := fun z => Q2Qc (inject_Z z)
|}.

(** ** ElecClock *)

Module ElecClock.

(** Modelled from the spec: ElecClock.h is not part of the sources at hand.
    A clock domain has a tick frequency (ticks per microsecond), a frame
    period (microseconds per frame) and a current reference time
    (microseconds); the constructor takes them in the order
    (time, frame period, frequency), as DetectorClocksStandard.h calls it. *)
Record t (F : Type) : Type := ElecClock {
  fTime : F;
  fFramePeriod : F;
  fFrequency : F
}.
Arguments ElecClock {F} _ _ _.
Arguments fTime {F} _.
Arguments fFramePeriod {F} _.
Arguments fFrequency {F} _.

Section Accessors.
Context {F : Type} `{Arith F}.
Local Open Scope dbl_scope.

(** Modelled from the spec: the current reference instant. *)
Definition Time (c : t F) : F := fTime c.

(** Modelled from the spec: read accessor, constant after construction. *)
Definition FramePeriod (c : t F) : F := fFramePeriod c.

(** Modelled from the spec: read accessor, constant after construction. *)
Definition Frequency (c : t F) : F := fFrequency c.

(** Modelled from the spec: tickPeriod = 1/frequency. *)
Definition TickPeriod (c : t F) : F := d1 / fFrequency c.

(** Modelled from the spec:
    Time(sample, frame) = frame * framePeriod + sample * tickPeriod. *)
Definition Time_at (c : t F) (sample frame : N) : F :=
  of_int (Z.of_N frame) * fFramePeriod c + of_int (Z.of_N sample) * TickPeriod c.

(** Modelled from the spec: SetTime(t) sets the reference instant directly. *)
Definition SetTime (c : t F) (time : F) : t F :=
  ElecClock time (fFramePeriod c) (fFrequency c).

(** Modelled from the spec: SetTime(sample, frame) sets the reference
    instant via Time(sample, frame). *)
Definition SetTime_at (c : t F) (sample frame : N) : t F :=
  SetTime c (Time_at c sample frame).

End Accessors.

End ElecClock.

(** ** DetectorClocksStandard: the data members *)

Record DetectorClocksStandard (F : Type) : Type := mkDetectorClocksStandard {
  fConfigName : list string;
  fConfigValue : list F;
  fInheritClockConfig : bool;
  fTrigModuleName : string;
  fG4RefCorrTrigModuleName : string;
  fG4RefTime : F;
  fG4RefTimeDefault : F;
  fFramePeriod : F;
  fTPCClock : ElecClock.t F;
  fOpticalClock : ElecClock.t F;
  fTriggerClock : ElecClock.t F;
  fExternalClock : ElecClock.t F;
  fTriggerOffsetTPC : F;
  fTriggerTime : F;
  fBeamGateTime : F
}.
Arguments mkDetectorClocksStandard {F} _ _ _ _ _ _ _ _ _ _ _ _ _ _ _.
Arguments fConfigName {F} _.
Arguments fConfigValue {F} _.
Arguments fInheritClockConfig {F} _.
Arguments fTrigModuleName {F} _.
Arguments fG4RefCorrTrigModuleName {F} _.
Arguments fG4RefTime {F} _.
Arguments fG4RefTimeDefault {F} _.
Arguments fFramePeriod {F} _.
Arguments fTPCClock {F} _.
Arguments fOpticalClock {F} _.
Arguments fTriggerClock {F} _.
Arguments fExternalClock {F} _.
Arguments fTriggerOffsetTPC {F} _.
Arguments fTriggerTime {F} _.
Arguments fBeamGateTime {F} _.

(** ** DetectorClocksStandard: the member functions *)

Section Provider.
Context {F : Type} `{Arith F}.
Local Open Scope dbl_scope.

Local Abbreviation Clocks := (DetectorClocksStandard F).

(** Trigger electronics clock time in [us]. *)
Definition TriggerTime (s : Clocks) : F := fTriggerTime s.

(** Beam gate electronics clock time in [us]. *)
Definition BeamGateTime (s : Clocks) : F := fBeamGateTime s.

(** [if (fTriggerOffsetTPC<0) return fTriggerOffsetTPC;
     else return -fTriggerOffsetTPC/fTPCClock.Frequency();] *)
Definition TriggerOffsetTPC (s : Clocks) : F :=
  if fTriggerOffsetTPC s <? d0
  then fTriggerOffsetTPC s
  else - fTriggerOffsetTPC s / ElecClock.Frequency (fTPCClock s).

(** [return TriggerTime() + TriggerOffsetTPC();] *)
Definition doTPCTime (s : Clocks) : F := TriggerTime s + TriggerOffsetTPC s.

Definition TPCTime (s : Clocks) : F := doTPCTime s.

(** [return g4_time * 1.e-3 - fG4RefTime;] *)
Definition G4ToElecTime (s : Clocks) (g4_time : F) : F :=
  g4_time * d1em3 - fG4RefTime s.

Definition ConfigNames (s : Clocks) : list string := fConfigName s.

Definition ConfigValues (s : Clocks) : list F := fConfigValue s.

(** [fTriggerTime = trig_time; fBeamGateTime = beam_time;
     fTPCClock.SetTime(trig_time); fOpticalClock.SetTime(trig_time);
     fTriggerClock.SetTime(trig_time);] *)
Definition SetTriggerTime (s : Clocks) (trig_time beam_time : F) : Clocks :=
  {| fConfigName := fConfigName s;
     fConfigValue := fConfigValue s;
     fInheritClockConfig := fInheritClockConfig s;
     fTrigModuleName := fTrigModuleName s;
     fG4RefCorrTrigModuleName := fG4RefCorrTrigModuleName s;
     fG4RefTime := fG4RefTime s;
     fG4RefTimeDefault := fG4RefTimeDefault s;
     fFramePeriod := fFramePeriod s;
     fTPCClock := ElecClock.SetTime (fTPCClock s) trig_time;
     fOpticalClock := ElecClock.SetTime (fOpticalClock s) trig_time;
     fTriggerClock := ElecClock.SetTime (fTriggerClock s) trig_time;
     fExternalClock := fExternalClock s;
     fTriggerOffsetTPC := fTriggerOffsetTPC s;
     fTriggerTime := trig_time;
     fBeamGateTime := beam_time |}.

(** [fG4RefTime = fG4RefTimeDefault - TriggerTime() + sim_trig_time;] *)
Definition RebaseG4RefTime (s : Clocks) (sim_trig_time : F) : Clocks :=
  {| fConfigName := fConfigName s;
     fConfigValue := fConfigValue s;
     fInheritClockConfig := fInheritClockConfig s;
     fTrigModuleName := fTrigModuleName s;
     fG4RefCorrTrigModuleName := fG4RefCorrTrigModuleName s;
     fG4RefTime := fG4RefTimeDefault s - TriggerTime s + sim_trig_time;
     fG4RefTimeDefault := fG4RefTimeDefault s;
     fFramePeriod := fFramePeriod s;
     fTPCClock := fTPCClock s;
     fOpticalClock := fOpticalClock s;
     fTriggerClock := fTriggerClock s;
     fExternalClock := fExternalClock s;
     fTriggerOffsetTPC := fTriggerOffsetTPC s;
     fTriggerTime := fTriggerTime s;
     fBeamGateTime := fBeamGateTime s |}.

(** The clock getters.  The C++ overloads [XClock()], [XClock(double)] and
    [XClock(unsigned, unsigned)] get the suffixes [_time] and [_at]. *)
Definition TPCClock (s : Clocks) : ElecClock.t F := fTPCClock s.

Definition TPCClock_time (s : Clocks) (time : F) : ElecClock.t F :=
  ElecClock.ElecClock time (ElecClock.FramePeriod (fTPCClock s))
                      (ElecClock.Frequency (fTPCClock s)).

Definition TPCClock_at (s : Clocks) (sample frame : N) : ElecClock.t F :=
  ElecClock.SetTime_at (TPCClock s) sample frame.

Definition OpticalClock (s : Clocks) : ElecClock.t F := fOpticalClock s.

Definition OpticalClock_time (s : Clocks) (time : F) : ElecClock.t F :=
  ElecClock.ElecClock time (ElecClock.FramePeriod (fOpticalClock s))
                      (ElecClock.Frequency (fOpticalClock s)).

Definition OpticalClock_at (s : Clocks) (sample frame : N) : ElecClock.t F :=
  ElecClock.SetTime_at (OpticalClock s) sample frame.

Definition TriggerClock (s : Clocks) : ElecClock.t F := fTriggerClock s.

Definition TriggerClock_time (s : Clocks) (time : F) : ElecClock.t F :=
  ElecClock.ElecClock time (ElecClock.FramePeriod (fTriggerClock s))
                      (ElecClock.Frequency (fTriggerClock s)).

Definition TriggerClock_at (s : Clocks) (sample frame : N) : ElecClock.t F :=
  ElecClock.SetTime_at (TriggerClock s) sample frame.

Definition ExternalClock (s : Clocks) : ElecClock.t F := fExternalClock s.

(** [return detinfo::ElecClock(time, fExternalClock.FramePeriod(),
                                fTriggerClock.Frequency());] *)
Definition ExternalClock_time (s : Clocks) (time : F) : ElecClock.t F :=
  ElecClock.ElecClock time (ElecClock.FramePeriod (fExternalClock s))
                      (ElecClock.Frequency (fTriggerClock s)).

Definition ExternalClock_at (s : Clocks) (sample frame : N) : ElecClock.t F :=
  ElecClock.SetTime_at (ExternalClock s) sample frame.

(** Time [us] with respect to the trigger or the beam gate, from a waveform
    tick. *)
Definition TPCTick2TrigTime (s : Clocks) (tick : F) : F :=
  ElecClock.TickPeriod (fTPCClock s) * tick + TriggerOffsetTPC s.

Definition TPCTick2BeamTime (s : Clocks) (tick : F) : F :=
  TPCTick2TrigTime s tick + TriggerTime s - BeamGateTime s.

Definition OpticalTick2TrigTime (s : Clocks) (tick : F) (sample frame : N) : F :=
  ElecClock.TickPeriod (fOpticalClock s) * tick
  + ElecClock.Time_at (fOpticalClock s) sample frame - TriggerTime s.

Definition OpticalTick2BeamTime (s : Clocks) (tick : F) (sample frame : N) : F :=
  ElecClock.TickPeriod (fOpticalClock s) * tick
  + ElecClock.Time_at (fOpticalClock s) sample frame - BeamGateTime s.

Definition ExternalTick2TrigTime (s : Clocks) (tick : F) (sample frame : N) : F :=
  ElecClock.TickPeriod (fExternalClock s) * tick
  + ElecClock.Time_at (fExternalClock s) sample frame - TriggerTime s.

Definition ExternalTick2BeamTime (s : Clocks) (tick : F) (sample frame : N) : F :=
  ElecClock.TickPeriod (fExternalClock s) * tick
  + ElecClock.Time_at (fExternalClock s) sample frame - BeamGateTime s.

(** [return (time - doTPCTime()) / fTPCClock.TickPeriod();] *)
Definition doTime2Tick (s : Clocks) (time : F) : F :=
  (time - doTPCTime s) / ElecClock.TickPeriod (fTPCClock s).

Definition Time2Tick (s : Clocks) (time : F) : F := doTime2Tick s time.

(** Electronics clock counts [tdc] and times [us] of the TPC. *)
Definition TPCTick2TDC (s : Clocks) (tick : F) : F :=
  doTPCTime s / ElecClock.TickPeriod (fTPCClock s) + tick.

Definition TPCG4Time2TDC (s : Clocks) (g4time : F) : F :=
  G4ToElecTime s g4time / ElecClock.TickPeriod (fTPCClock s).

Definition TPCTick2Time (s : Clocks) (tick : F) : F :=
  doTPCTime s + tick * ElecClock.TickPeriod (fTPCClock s).

Definition OpticalTick2Time (s : Clocks) (tick : F) (sample frame : N) : F :=
  ElecClock.Time_at (fOpticalClock s) sample frame
  + tick * ElecClock.TickPeriod (fOpticalClock s).

Definition ExternalTick2Time (s : Clocks) (tick : F) (sample frame : N) : F :=
  ElecClock.Time_at (fExternalClock s) sample frame
  + tick * ElecClock.TickPeriod (fExternalClock s).

Definition OpticalG4Time2TDC (s : Clocks) (g4time : F) : F :=
  G4ToElecTime s g4time / ElecClock.TickPeriod (fOpticalClock s).

Definition ExternalG4Time2TDC (s : Clocks) (g4time : F) : F :=
  G4ToElecTime s g4time / ElecClock.TickPeriod (fExternalClock s).

Definition TPCTDC2Tick (s : Clocks) (tdc : F) : F :=
  tdc - doTPCTime s / ElecClock.TickPeriod (fTPCClock s).

Definition TPCG4Time2Tick (s : Clocks) (g4time : F) : F :=
  (G4ToElecTime s g4time - doTPCTime s) / ElecClock.TickPeriod (fTPCClock s).

Definition InheritClockConfig (s : Clocks) : bool := fInheritClockConfig s.

Definition TrigModuleName (s : Clocks) : string := fTrigModuleName s.

Definition G4RefCorrTrigModuleName (s : Clocks) : string :=
  fG4RefCorrTrigModuleName s.

(** [void SetConfigValue(size_t i, double val) { fConfigValue[i] = val; }]
    The subscript of a [std::vector] is defined for [i < size()] only, and
    there the entry is overwritten; [None] stands for the call with no
    defined behaviour. *)
Definition SetConfigValue (s : Clocks) (i : nat) (val : F) : option Clocks :=
  if decide (i < length (fConfigValue s))%nat
  then Some
    {| fConfigName := fConfigName s;
       fConfigValue := <[i := val]> (fConfigValue s);
       fInheritClockConfig := fInheritClockConfig s;
       fTrigModuleName := fTrigModuleName s;
       fG4RefCorrTrigModuleName := fG4RefCorrTrigModuleName s;
       fG4RefTime := fG4RefTime s;
       fG4RefTimeDefault := fG4RefTimeDefault s;
       fFramePeriod := fFramePeriod s;
       fTPCClock := fTPCClock s;
       fOpticalClock := fOpticalClock s;
       fTriggerClock := fTriggerClock s;
       fExternalClock := fExternalClock s;
       fTriggerOffsetTPC := fTriggerOffsetTPC s;
       fTriggerTime := fTriggerTime s;
       fBeamGateTime := fBeamGateTime s |}
  else None.

(** Modelled from the spec: IsRightConfig is only declared in the header, its
    body is not part of the sources at hand.  The candidate configuration is
    read as a map from parameter names to values.  The provider's recorded
    names and values ([fConfigName], [fConfigValue], index by index) are
    compared with it entry by entry: every recorded name must be present in
    the candidate with a value equal ([==]) to the recorded one. *)
Definition IsRightConfig (s : Clocks) (ps : gmap string F) : bool :=
  forallb
    (fun nv : string * F =>
       match ps !! nv.1 with
       | Some w => nv.2 =? w
       | None => false
       end)
    (zip (fConfigName s) (fConfigValue s)).

End Provider.

(** ** A configured provider

    Modelled from the spec: the constructor and [ApplyParams] are not part of
    the sources at hand.  Configuration records the nine numeric parameters
    under their names, builds the four clocks with the shared frame period
    and their own frequencies, and starts the trigger and beam gate times at
    their configured defaults. *)

Section Configured.
Context {F : Type} `{Arith F}.

Definition configured (G4RefTime TriggerOffset FramePeriod ClockSpeedTPC
    ClockSpeedOptical ClockSpeedTrigger ClockSpeedExternal DefaultTrigTime
    DefaultBeamTime : F) : DetectorClocksStandard F :=
  {| fConfigName :=
       ["G4RefTime"; "TriggerOffsetTPC"; "FramePeriod"; "ClockSpeedTPC";
        "ClockSpeedOptical"; "ClockSpeedTrigger"; "ClockSpeedExternal";
        "DefaultTrigTime"; "DefaultBeamTime"];
     fConfigValue :=
       [G4RefTime; TriggerOffset; FramePeriod; ClockSpeedTPC;
        ClockSpeedOptical; ClockSpeedTrigger; ClockSpeedExternal;
        DefaultTrigTime; DefaultBeamTime];
     fInheritClockConfig := false;
     fTrigModuleName := "daq";
     fG4RefCorrTrigModuleName := "";
     fG4RefTime := G4RefTime;
     fG4RefTimeDefault := G4RefTime;
     fFramePeriod := FramePeriod;
     fTPCClock := ElecClock.ElecClock DefaultTrigTime FramePeriod ClockSpeedTPC;
     fOpticalClock := ElecClock.ElecClock DefaultTrigTime FramePeriod ClockSpeedOptical;
     fTriggerClock := ElecClock.ElecClock DefaultTrigTime FramePeriod ClockSpeedTrigger;
     fExternalClock := ElecClock.ElecClock DefaultTrigTime FramePeriod ClockSpeedExternal;
     fTriggerOffsetTPC := TriggerOffset;
     fTriggerTime := DefaultTrigTime;
     fBeamGateTime := DefaultBeamTime |}.

End Configured.

(** The configuration of the header's documentation: a 2 MHz TPC clock that
    starts 1.6 ms before the trigger, given either way. *)
Definition clocks_us : DetectorClocksStandard float :=
  (configured 0 (-1600) 1600 2 64 16 31.25 0 0)%float.

Definition clocks_ticks : DetectorClocksStandard float :=
  (configured 0 3200 1600 2 64 16 31.25 0 0)%float.

(** The same with a 2.5 MHz TPC clock, whose tick period 0.4 us is not a
    binary64 value. *)
Definition clocks_2500kHz : DetectorClocksStandard float :=
  (configured 0 (-1600) 1600 2.5 64 16 31.25 0 0)%float.

(** [Time2Tick] of the instant [k] TPC ticks after [TPCTime()]. *)
Definition tick_round_trip {F : Type} `{Arith F}
    (s : DetectorClocksStandard F) (k : Z) : F :=
  Time2Tick s (TPCTime s + of_int k * ElecClock.TickPeriod (fTPCClock s))%D.

(** The rational reading of [clocks_2500kHz]. *)
Definition exact_2500kHz : DetectorClocksStandard Qc :=
  configured (Q2Qc 0) (Q2Qc (-1600)) (Q2Qc 1600) (Q2Qc (5 # 2)) (Q2Qc 64)
             (Q2Qc 16) (Q2Qc (125 # 4)) (Q2Qc 0) (Q2Qc 0).

(** The rational reading of [clocks_ticks]. *)
Definition exact_ticks : DetectorClocksStandard Qc :=
  configured (Q2Qc 0) (Q2Qc 3200) (Q2Qc 1600) (Q2Qc 2) (Q2Qc 64)
             (Q2Qc 16) (Q2Qc (125 # 4)) (Q2Qc 0) (Q2Qc 0).

(** The name to value mapping a provider has recorded. *)
Definition recorded_config {F : Type} (s : DetectorClocksStandard F) :
    gmap string F :=
  list_to_map (zip (fConfigName s) (fConfigValue s)).

(** ** Facts about binary64 arithmetic *)

Section DoubleFacts.
Local Open Scope float_scope.

(** [x >= 0] excludes [x < 0]. *)
Lemma double_le0_not_lt0 (x : float) : (0 <=? x) = true -> (x <? 0) = false.
Proof.
  rewrite leb_spec, ltb_spec.
  change (Prim2SF 0) with (S754_zero false).
  destruct (Prim2SF x) as [sx|sx| |sx mx ex];
    unfold SFleb, SFltb; simpl; try destruct sx; congruence.
Qed.

Lemma SFsub_add_opp (prec emax : Z) (x y : spec_float) :
  SFsub prec emax x y = SFadd prec emax x (SFopp y).
Proof.
  destruct x as [sx|sx| |sx mx ex], y as [sy|sy| |sy my ey]; simpl;
    try reflexivity; destruct sx, sy; reflexivity.
Qed.

(** Subtracting is adding the opposite, also in binary64. *)
Lemma double_sub_add_opp (x y : float) : x - y = x + (- y).
Proof.
  apply Prim2SF_inj.
  rewrite sub_spec, add_spec, opp_spec.
  apply SFsub_add_opp.
Qed.

Lemma SFmul_comm (prec emax : Z) (x y : spec_float) :
  SFmul prec emax x y = SFmul prec emax y x.
Proof.
  destruct x as [sx|sx| |sx mx ex], y as [sy|sy| |sy my ey]; simpl;
    try reflexivity; try (now rewrite xorb_comm).
  now rewrite xorb_comm, Pos.mul_comm, Z.add_comm.
Qed.

(** Multiplication commutes, also in binary64. *)
Lemma double_mul_comm (x y : float) : x * y = y * x.
Proof.
  apply Prim2SF_inj. rewrite !mul_spec. apply SFmul_comm.
Qed.

(** Two binary64 values that differ as bit patterns are different. *)
Lemma double_neq (x y : float) : Leibniz.eqb x y = false -> x <> y.
Proof.
  intros Hne Heq. apply Leibniz.eqb_spec in Heq. congruence.
Qed.

End DoubleFacts.

(** ** The trigger offset and the TPC start time *)

Section TriggerOffset.
Local Open Scope dbl_scope.

(** C1.  [TriggerOffsetTPC()] reads the configured [fTriggerOffsetTPC] in two
    modes: a value [x < 0] (microseconds) is returned as it is, a value
    [x >= 0] (ticks) is returned as [-x] divided by the frequency of the TPC
    clock.  In particular 3200 ticks at 2 MHz and -1600 microseconds give the
    same [TPCTime()]. *)
Theorem TriggerOffsetTPC_dual_mode :
  (forall s : DetectorClocksStandard float,
      (fTriggerOffsetTPC s <? 0)%float = true ->
      TriggerOffsetTPC s = fTriggerOffsetTPC s) /\
  (forall s : DetectorClocksStandard float,
      (0 <=? fTriggerOffsetTPC s)%float = true ->
      TriggerOffsetTPC s
      = - fTriggerOffsetTPC s / ElecClock.Frequency (fTPCClock s)) /\
  (forall s s' : DetectorClocksStandard float,
      fTriggerOffsetTPC s = 3200%float ->
      ElecClock.Frequency (fTPCClock s) = 2%float ->
      fTriggerOffsetTPC s' = (-1600)%float ->
      TriggerTime s = TriggerTime s' ->
      TPCTime s = TPCTime s').
Proof.
  split; [|split].
  - intros s Hneg. unfold TriggerOffsetTPC. cbn. now rewrite Hneg.
  - intros s Hpos. unfold TriggerOffsetTPC. cbn.
    now rewrite (double_le0_not_lt0 _ Hpos).
  - intros s s' Hticks Hfreq Hus Htrig.
    unfold TPCTime, doTPCTime, TriggerOffsetTPC.
    rewrite Hticks, Hfreq, Hus, Htrig. f_equal.
Qed.

(** The two configurations of the header's documentation. *)
Lemma TriggerOffsetTPC_dual_mode_witness :
  TriggerOffsetTPC clocks_us = (-1600)%float /\
  TriggerOffsetTPC clocks_ticks = (-1600)%float /\
  TPCTime clocks_ticks = TPCTime clocks_us.
Proof.
  destruct TriggerOffsetTPC_dual_mode as (Hus & Hticks & Hsame).
  split; [|split].
  - rewrite (Hus clocks_us); reflexivity.
  - rewrite (Hticks clocks_ticks); reflexivity.
  - apply (Hsame clocks_ticks clocks_us); reflexivity.
Defined.

(** C2.  [TPCTime()] is [TriggerTime() + TriggerOffsetTPC()]; with the offset
    configured as -1600.0 it is [TriggerTime() - 1600.0]. *)
Theorem TPCTime_trigger_plus_offset :
  (forall s : DetectorClocksStandard float,
      TPCTime s = TriggerTime s + TriggerOffsetTPC s) /\
  (forall s : DetectorClocksStandard float,
      fTriggerOffsetTPC s = (-1600)%float ->
      TPCTime s = TriggerTime s - 1600%float).
Proof.
  split.
  - reflexivity.
  - intros s Hus. unfold TPCTime, doTPCTime, TriggerOffsetTPC.
    rewrite Hus. cbn. symmetry. apply double_sub_add_opp.
Qed.

Lemma TPCTime_trigger_plus_offset_witness :
  TPCTime (SetTriggerTime clocks_us 100%float 50%float) = 100%float - 1600%float.
Proof.
  exact (proj2 TPCTime_trigger_plus_offset
               (SetTriggerTime clocks_us 100%float 50%float) eq_refl).
Defined.

End TriggerOffset.

(** ** Simulation time *)

Section SimulationTime.
Local Open Scope dbl_scope.

(** C4.  [G4ToElecTime(g4_time)] is [g4_time * 1e-3 - g4RefTime] for the
    provider's current simulation-time origin, be it the configured one or
    the one [RebaseG4RefTime] has put in place; 5000 ns with an origin of
    3.0 gives 2.0. *)
Theorem G4ToElecTime_formula :
  (forall (s : DetectorClocksStandard float) (g4_time : float),
      G4ToElecTime s g4_time = g4_time * d1em3 - fG4RefTime s) /\
  (forall (s : DetectorClocksStandard float) (sim_trig_time g4_time : float),
      G4ToElecTime (RebaseG4RefTime s sim_trig_time) g4_time
      = g4_time * d1em3
        - (fG4RefTimeDefault s - TriggerTime s + sim_trig_time)) /\
  (forall s : DetectorClocksStandard float,
      fG4RefTime s = 3%float -> G4ToElecTime s 5000%float = 2%float).
Proof.
  split; [|split].
  - reflexivity.
  - reflexivity.
  - intros s Href. unfold G4ToElecTime. rewrite Href. reflexivity.
Qed.

Lemma G4ToElecTime_formula_witness :
  G4ToElecTime (configured 3 (-1600) 1600 2 64 16 31.25 0 0)%float 5000%float
  = 2%float.
Proof.
  exact (proj2 (proj2 G4ToElecTime_formula)
               (configured 3 (-1600) 1600 2 64 16 31.25 0 0)%float eq_refl).
Defined.

(** C6.  [RebaseG4RefTime(sim_trig_time)] sets [g4RefTime] to
    [g4RefTimeDefault - TriggerTime() + sim_trig_time].  The default and the
    trigger time are left as they are and the previous [g4RefTime] is not
    read, so an earlier rebase is forgotten and a repeated call with the same
    argument changes nothing.  Default 1.0, trigger time 100.0 and simulated
    trigger time 90.0 give -9.0. *)
Theorem RebaseG4RefTime_from_default :
  (forall (s : DetectorClocksStandard float) (sim_trig_time : float),
      fG4RefTime (RebaseG4RefTime s sim_trig_time)
      = fG4RefTimeDefault s - TriggerTime s + sim_trig_time) /\
  (forall (s : DetectorClocksStandard float) (sim_trig_time : float),
      fG4RefTimeDefault (RebaseG4RefTime s sim_trig_time) = fG4RefTimeDefault s /\
      TriggerTime (RebaseG4RefTime s sim_trig_time) = TriggerTime s) /\
  (forall (s : DetectorClocksStandard float) (earlier sim_trig_time : float),
      RebaseG4RefTime (RebaseG4RefTime s earlier) sim_trig_time
      = RebaseG4RefTime s sim_trig_time) /\
  (forall (s : DetectorClocksStandard float) (sim_trig_time : float),
      RebaseG4RefTime (RebaseG4RefTime s sim_trig_time) sim_trig_time
      = RebaseG4RefTime s sim_trig_time) /\
  (forall s : DetectorClocksStandard float,
      fG4RefTimeDefault s = 1%float ->
      TriggerTime s = 100%float ->
      fG4RefTime (RebaseG4RefTime s 90%float) = (-9)%float).
Proof.
  repeat split.
  intros s Hdefault Htrig. cbn. rewrite Hdefault, Htrig. reflexivity.
Qed.

Lemma RebaseG4RefTime_from_default_witness :
  fG4RefTime
    (RebaseG4RefTime
       (SetTriggerTime (configured 1 (-1600) 1600 2 64 16 31.25 0 0)%float
                       100%float 50%float)
       90%float)
  = (-9)%float.
Proof.
  exact (proj2 (proj2 (proj2 (proj2 RebaseG4RefTime_from_default)))
               (SetTriggerTime (configured 1 (-1600) 1600 2 64 16 31.25 0 0)%float
                               100%float 50%float)
               eq_refl eq_refl).
Defined.

End SimulationTime.

(** ** The per-event update *)

Section TriggerUpdate.
Local Open Scope dbl_scope.

(** C5.  [SetTriggerTime(trig_time, beam_time)] stores both values and sets
    the reference time of the TPC, Optical and Trigger clocks to [trig_time];
    the External clock is left as it was.  The frequencies and frame periods
    of the three updated clocks do not change. *)
Theorem SetTriggerTime_effect :
  forall (s : DetectorClocksStandard float) (trig_time beam_time : float),
    TriggerTime (SetTriggerTime s trig_time beam_time) = trig_time /\
    BeamGateTime (SetTriggerTime s trig_time beam_time) = beam_time /\
    TPCClock (SetTriggerTime s trig_time beam_time)
    = ElecClock.ElecClock trig_time (ElecClock.FramePeriod (TPCClock s))
                          (ElecClock.Frequency (TPCClock s)) /\
    OpticalClock (SetTriggerTime s trig_time beam_time)
    = ElecClock.ElecClock trig_time (ElecClock.FramePeriod (OpticalClock s))
                          (ElecClock.Frequency (OpticalClock s)) /\
    TriggerClock (SetTriggerTime s trig_time beam_time)
    = ElecClock.ElecClock trig_time (ElecClock.FramePeriod (TriggerClock s))
                          (ElecClock.Frequency (TriggerClock s)) /\
    ExternalClock (SetTriggerTime s trig_time beam_time) = ExternalClock s.
Proof. intros s trig_time beam_time. repeat split. Qed.

(** The example of the specification: [SetTriggerTime(100.0, 50.0)]. *)
Example SetTriggerTime_100_50 :
  let s := SetTriggerTime clocks_us 100%float 50%float in
  TriggerTime s = 100%float /\
  BeamGateTime s = 50%float /\
  ElecClock.Time (TPCClock s) = 100%float /\
  ElecClock.Time (OpticalClock s) = 100%float /\
  ElecClock.Time (TriggerClock s) = 100%float /\
  ElecClock.Time (ExternalClock s) = 0%float.
Proof. repeat split. Qed.

(** C9.  [ExternalClock(time)] builds a clock at [time] with the frame period
    of the External clock and the frequency of the Trigger clock, for every
    [time]; with a 16 MHz trigger clock and a 31.25 MHz external clock the
    clock it returns runs at 16 MHz. *)
Theorem ExternalClock_time_borrows_trigger_frequency :
  (forall (s : DetectorClocksStandard float) (time : float),
      ElecClock.Frequency (ExternalClock_time s time)
      = ElecClock.Frequency (TriggerClock s) /\
      ElecClock.FramePeriod (ExternalClock_time s time)
      = ElecClock.FramePeriod (ExternalClock s) /\
      ElecClock.Time (ExternalClock_time s time) = time) /\
  (forall time : float,
      ElecClock.Frequency (ExternalClock_time clocks_us time) = 16%float /\
      ElecClock.Frequency (ExternalClock clocks_us) = 31.25%float).
Proof. split; intros; repeat split. Qed.

End TriggerUpdate.

(** ** Waveform ticks of the TPC *)

Section TPCTicks.
Local Open Scope dbl_scope.

(** C10.  [TPCTick2TrigTime(tick)] is [tick] times the TPC tick period plus
    [TriggerOffsetTPC()].  It reads neither the trigger time nor the beam gate
    time: providers that agree on the frequency of the TPC clock and on the
    configured offset return the same value, and [SetTriggerTime] does not
    change it.  [OpticalTick2TrigTime] and [ExternalTick2TrigTime] subtract the
    trigger time in force. *)
Theorem TPCTick2TrigTime_ignores_event_times :
  (forall (s : DetectorClocksStandard float) (tick : float),
      TPCTick2TrigTime s tick
      = tick * ElecClock.TickPeriod (fTPCClock s) + TriggerOffsetTPC s) /\
  (forall (s s' : DetectorClocksStandard float) (tick : float),
      ElecClock.Frequency (fTPCClock s) = ElecClock.Frequency (fTPCClock s') ->
      fTriggerOffsetTPC s = fTriggerOffsetTPC s' ->
      TPCTick2TrigTime s tick = TPCTick2TrigTime s' tick) /\
  (forall (s : DetectorClocksStandard float) (trig_time beam_time tick : float),
      TPCTick2TrigTime (SetTriggerTime s trig_time beam_time) tick
      = TPCTick2TrigTime s tick) /\
  (forall (s : DetectorClocksStandard float) (trig_time beam_time tick : float)
          (sample frame : N),
      OpticalTick2TrigTime (SetTriggerTime s trig_time beam_time) tick sample frame
      = ElecClock.TickPeriod (fOpticalClock s) * tick
        + ElecClock.Time_at (fOpticalClock s) sample frame - trig_time /\
      ExternalTick2TrigTime (SetTriggerTime s trig_time beam_time) tick sample frame
      = ElecClock.TickPeriod (fExternalClock s) * tick
        + ElecClock.Time_at (fExternalClock s) sample frame - trig_time).
Proof.
  split; [|split; [|split]].
  - intros s tick. unfold TPCTick2TrigTime. cbn. f_equal.
    apply double_mul_comm.
  - intros s s' tick Hfreq Hoff.
    unfold TPCTick2TrigTime, TriggerOffsetTPC, ElecClock.TickPeriod.
    unfold ElecClock.Frequency in Hfreq |- *.
    now rewrite Hfreq, Hoff.
  - reflexivity.
  - intros; split; reflexivity.
Qed.

(** Tick 3 of the 2 MHz TPC clock before and after [SetTriggerTime(100, 50)]. *)
Lemma TPCTick2TrigTime_ignores_event_times_witness :
  TPCTick2TrigTime clocks_us 3%float
  = TPCTick2TrigTime (SetTriggerTime clocks_us 100%float 50%float) 3%float.
Proof.
  exact (proj1 (proj2 TPCTick2TrigTime_ignores_event_times)
               clocks_us (SetTriggerTime clocks_us 100%float 50%float) 3%float
               eq_refl eq_refl).
Defined.

(** The same tick of the optical and external waveforms moves with the
    trigger time; the TPC tick does not. *)
Example Tick2TrigTime_after_SetTriggerTime :
  TPCTick2TrigTime clocks_us 3%float = (-1598.5)%float /\
  TPCTick2TrigTime (SetTriggerTime clocks_us 100%float 50%float) 3%float
  = (-1598.5)%float /\
  OpticalTick2TrigTime clocks_us 32%float 0 0 = 0.5%float /\
  OpticalTick2TrigTime (SetTriggerTime clocks_us 100%float 50%float) 32%float 0 0
  = (-99.5)%float /\
  ExternalTick2TrigTime clocks_us 125%float 0 0 = 4%float /\
  ExternalTick2TrigTime (SetTriggerTime clocks_us 100%float 50%float) 125%float 0 0
  = (-96)%float.
Proof. repeat split. Qed.

End TPCTicks.

(** ** Time to tick and back *)

Section TimeTick.
Local Open Scope dbl_scope.

(** C3, as the code has it.  [Time2Tick(t)] is
    [(t - TPCTime()) / tpcTickPeriod].  Without rounding, that is over the
    rationals, [Time2Tick(TPCTime() + k * tpcTickPeriod)] is [k] for every
    integer [k] and every nonzero tick period.  In binary64 the three
    operations round; the round trip is exact for instance for the 2 MHz
    clock started 1600 us before a trigger at 0 and every tick [k] of its
    9600-tick readout window. *)
Theorem Time2Tick_round_trip :
  (forall (s : DetectorClocksStandard float) (time : float),
      Time2Tick s time
      = (time - TPCTime s) / ElecClock.TickPeriod (fTPCClock s)) /\
  (forall (s : DetectorClocksStandard Qc) (k : Z),
      ElecClock.TickPeriod (fTPCClock s) <> d0 ->
      tick_round_trip s k = of_int k) /\
  (forall k : Z,
      (0 <= k < 9600)%Z -> tick_round_trip clocks_us k = of_int k).
Proof.
  split; [|split].
  - reflexivity.
  - intros s k Hperiod.
    unfold tick_round_trip, Time2Tick, doTime2Tick, TPCTime.
    generalize dependent (ElecClock.TickPeriod (fTPCClock s)).
    generalize (doTPCTime s). cbn. intros start period Hperiod.
    field. exact Hperiod.
  - intros k Hk.
    assert (Hall : forallb
                     (fun n => Leibniz.eqb (tick_round_trip clocks_us (Z.of_nat n))
                                           (of_int (Z.of_nat n)))
                     (seq 0 (Z.to_nat 9600)) = true) by (vm_compute; reflexivity).
    rewrite forallb_forall in Hall.
    specialize (Hall (Z.to_nat k)).
    rewrite Z2Nat.id in Hall by lia.
    apply Leibniz.eqb_spec, Hall, in_seq. lia.
Qed.

Lemma Time2Tick_round_trip_witness :
  tick_round_trip exact_2500kHz 1%Z = Q2Qc 1 /\
  tick_round_trip clocks_us 3200%Z = 3200%float.
Proof.
  split.
  - apply (proj1 (proj2 Time2Tick_round_trip) exact_2500kHz 1%Z).
    intros Hzero. discriminate Hzero.
  - apply (proj2 (proj2 Time2Tick_round_trip) 3200%Z). lia.
Defined.

(** C3, as it is worded, against binary64: with a 2.5 MHz TPC clock (tick
    period 0.4 us), the offset -1600 us and the trigger at 0, the instant one
    tick after [TPCTime()] converts to 1.0000000000002274, not to 1. *)
Lemma Time2Tick_round_trip_rounds :
  (ElecClock.TickPeriod (fTPCClock clocks_2500kHz) =? 0%float) = false /\
  tick_round_trip clocks_2500kHz 1%Z = 0x1.00000000004p+0%float /\
  (tick_round_trip clocks_2500kHz 1%Z =? of_int 1%Z) = false /\
  tick_round_trip clocks_2500kHz 1%Z <> of_int 1%Z.
Proof.
  repeat split. apply double_neq. reflexivity.
Qed.

End TimeTick.

(** ** Times with respect to the beam gate *)

Section BeamTime.
Local Open Scope dbl_scope.

(** C7, as the code has it.  [TPCTick2BeamTime] is computed as
    [TPCTick2TrigTime + TriggerTime() - BeamGateTime()].
    [OpticalTick2BeamTime] and [ExternalTick2BeamTime] are computed on their
    own, as tick period times tick plus [Time(sample, frame)] minus
    [BeamGateTime()]; without rounding, that is over the rationals, this is
    the same as the domain's [Tick2TrigTime] plus [TriggerTime()] minus
    [BeamGateTime()], for every tick, sample and frame. *)
Theorem Tick2BeamTime_relation :
  (forall (s : DetectorClocksStandard float) (tick : float),
      TPCTick2BeamTime s tick
      = TPCTick2TrigTime s tick + TriggerTime s - BeamGateTime s) /\
  (forall (s : DetectorClocksStandard float) (tick : float) (sample frame : N),
      OpticalTick2BeamTime s tick sample frame
      = ElecClock.TickPeriod (fOpticalClock s) * tick
        + ElecClock.Time_at (fOpticalClock s) sample frame - BeamGateTime s /\
      ExternalTick2BeamTime s tick sample frame
      = ElecClock.TickPeriod (fExternalClock s) * tick
        + ElecClock.Time_at (fExternalClock s) sample frame - BeamGateTime s) /\
  (forall (s : DetectorClocksStandard Qc) (tick : Qc) (sample frame : N),
      TPCTick2BeamTime s tick
      = TPCTick2TrigTime s tick + TriggerTime s - BeamGateTime s /\
      OpticalTick2BeamTime s tick sample frame
      = OpticalTick2TrigTime s tick sample frame + TriggerTime s - BeamGateTime s /\
      ExternalTick2BeamTime s tick sample frame
      = ExternalTick2TrigTime s tick sample frame + TriggerTime s - BeamGateTime s).
Proof.
  split; [|split].
  - reflexivity.
  - intros; split; reflexivity.
  - intros s tick sample frame. split; [reflexivity|].
    unfold OpticalTick2BeamTime, OpticalTick2TrigTime,
           ExternalTick2BeamTime, ExternalTick2TrigTime.
    generalize (ElecClock.TickPeriod (fOpticalClock s)),
               (ElecClock.Time_at (fOpticalClock s) sample frame),
               (ElecClock.TickPeriod (fExternalClock s)),
               (ElecClock.Time_at (fExternalClock s) sample frame),
               (TriggerTime s), (BeamGateTime s).
    cbn. intros p_opt t_opt p_ext t_ext trig beam. split; ring.
Qed.

(** C7, as it is worded, against binary64: after [SetTriggerTime(100, 50)],
    tick 2 of the 31.25 MHz external clock (tick period 0.032 us) is at
    -49.936 us from the beam gate, while its time from the trigger plus
    [TriggerTime()] minus [BeamGateTime()] is -49.936000000000007 us; the
    same happens at tick 0.1 of the 64 MHz optical clock
    ([0x1.999999999999ap-4] is the binary64 value of 0.1). *)
Lemma Tick2BeamTime_relation_rounds :
  ExternalTick2BeamTime (SetTriggerTime clocks_us 100%float 50%float) 2%float 0 0
  = (-0x1.8f7ced916872bp+5)%float /\
  ExternalTick2TrigTime (SetTriggerTime clocks_us 100%float 50%float) 2%float 0 0
  + TriggerTime (SetTriggerTime clocks_us 100%float 50%float)
  - BeamGateTime (SetTriggerTime clocks_us 100%float 50%float)
  = (-0x1.8f7ced916872cp+5)%float /\
  ExternalTick2BeamTime (SetTriggerTime clocks_us 100%float 50%float) 2%float 0 0
  <> ExternalTick2TrigTime (SetTriggerTime clocks_us 100%float 50%float) 2%float 0 0
     + TriggerTime (SetTriggerTime clocks_us 100%float 50%float)
     - BeamGateTime (SetTriggerTime clocks_us 100%float 50%float) /\
  OpticalTick2BeamTime (SetTriggerTime clocks_us 100%float 50%float)
                       0x1.999999999999ap-4%float 0 0
  <> OpticalTick2TrigTime (SetTriggerTime clocks_us 100%float 50%float)
                          0x1.999999999999ap-4%float 0 0
     + TriggerTime (SetTriggerTime clocks_us 100%float 50%float)
     - BeamGateTime (SetTriggerTime clocks_us 100%float 50%float).
Proof.
  split; [reflexivity|]. split; [reflexivity|].
  split; apply double_neq; reflexivity.
Qed.

End BeamTime.

(** ** The consistency check *)

Section ConsistencyCheck.
Local Open Scope dbl_scope.

(** C8.  [IsRightConfig(candidate)] is true only when every name and value
    the provider has recorded, entry by entry, is found in the candidate with
    an equal ([==]) value; a candidate that differs in the value of one
    recorded entry makes it false, as does one that lacks a recorded name. *)
Theorem IsRightConfig_true_only_if_all_match :
  (forall (s : DetectorClocksStandard float) (ps : gmap string float),
      IsRightConfig s ps = true ->
      forall (i : nat) (name : string) (value : float),
        fConfigName s !! i = Some name ->
        fConfigValue s !! i = Some value ->
        exists w : float, ps !! name = Some w /\ (value =? w) = true) /\
  (forall (s : DetectorClocksStandard float) (ps : gmap string float)
          (i : nat) (name : string) (value w : float),
      fConfigName s !! i = Some name ->
      fConfigValue s !! i = Some value ->
      ps !! name = Some w ->
      (value =? w) = false ->
      IsRightConfig s ps = false) /\
  (forall (s : DetectorClocksStandard float) (ps : gmap string float)
          (i : nat) (name : string) (value : float),
      fConfigName s !! i = Some name ->
      fConfigValue s !! i = Some value ->
      ps !! name = None ->
      IsRightConfig s ps = false).
Proof.
  assert (Hall : forall (s : DetectorClocksStandard float) ps,
             IsRightConfig s ps = true ->
             forall i name value,
               fConfigName s !! i = Some name ->
               fConfigValue s !! i = Some value ->
               exists w : float, ps !! name = Some w /\ (value =? w) = true).
  { intros s ps Hok i name value Hname Hvalue.
    unfold IsRightConfig in Hok. rewrite forallb_forall in Hok.
    specialize (Hok (name, value)). cbn in Hok.
    destruct (ps !! name) as [w|].
    - exists w. split; [reflexivity|]. apply Hok.
      apply list_elem_of_In, list_elem_of_lookup. exists i.
      rewrite lookup_zip_with, Hname, Hvalue. reflexivity.
    - exfalso. enough (false = true) by discriminate. apply Hok.
      apply list_elem_of_In, list_elem_of_lookup. exists i.
      rewrite lookup_zip_with, Hname, Hvalue. reflexivity. }
  split; [exact Hall|split].
  - intros s ps i name value w Hname Hvalue Hps Hne.
    destruct (IsRightConfig s ps) eqn:Hok; [|reflexivity].
    destruct (Hall s ps Hok i name value Hname Hvalue) as (w' & Hw' & Heq).
    cbn in Heq, Hne. congruence.
  - intros s ps i name value Hname Hvalue Hps.
    destruct (IsRightConfig s ps) eqn:Hok; [|reflexivity].
    destruct (Hall s ps Hok i name value Hname Hvalue) as (w' & Hw' & _).
    congruence.
Qed.

(** The provider accepts its own configuration and rejects it once
    [FramePeriod] (entry 2) is changed from 1600 to 1700. *)
Lemma IsRightConfig_true_only_if_all_match_witness :
  IsRightConfig clocks_us (recorded_config clocks_us) = true /\
  IsRightConfig clocks_us
    (<["FramePeriod" := 1700%float]> (recorded_config clocks_us)) = false /\
  exists w : float,
    recorded_config clocks_us !! "FramePeriod" = Some w /\
    (1600%float =? w) = true.
Proof.
  split; [|split].
  - vm_compute. reflexivity.
  - apply (proj1 (proj2 IsRightConfig_true_only_if_all_match)
                 clocks_us _ 2%nat "FramePeriod" 1600%float 1700%float);
      reflexivity.
  - apply (proj1 IsRightConfig_true_only_if_all_match
                 clocks_us (recorded_config clocks_us)
                 ltac:(vm_compute; reflexivity) 2%nat "FramePeriod" 1600%float);
      reflexivity.
Defined.

End ConsistencyCheck.

(** * Further properties of the provider *)

(** ** More facts about binary64 arithmetic *)

Section DoubleSigns.
Local Open Scope float_scope.

(** A value rounded with the negative sign is not above zero. *)
Lemma binary_round_aux_not_positive (m e : Z) (l : location) :
  SFltb (S754_zero false) (binary_round_aux prec emax true m e l) = false.
Proof.
  unfold binary_round_aux.
  destruct (shr_fexp prec emax m e l) as [mrs' e'].
  destruct (shr_fexp prec emax _ e' loc_Exact) as [mrs'' e''].
  destruct (shr_m mrs'') as [|p|p]; [reflexivity| |reflexivity].
  destruct (e'' <=? emax - prec)%Z; reflexivity.
Qed.

(** For [x] not below zero and [f] above zero, [-x / f] is not above zero
    (it is negative, a zero, or not a number). *)
Lemma double_offset_not_positive (x f : float) :
  (x <? 0) = false -> (0 <? f) = true -> (0 <? - x / f) = false.
Proof.
  rewrite !ltb_spec, div_spec, opp_spec.
  change (Prim2SF 0) with (S754_zero false).
  unfold SF64div.
  destruct (Prim2SF x) as [sx|sx| |sx mx ex], (Prim2SF f) as [sf|sf| |sf mf ef];
    try destruct sx; try destruct sf; intros Hx Hf;
    try (unfold SFltb in Hx, Hf; simpl in Hx, Hf; congruence);
    try reflexivity.
  unfold SFdiv, SFopp.
  destruct (SFdiv_core_binary prec emax (Z.pos mx) ex (Z.pos mf) ef)
    as [[mz ez] lz].
  apply binary_round_aux_not_positive.
Qed.

Lemma double_lt0_not_gt0 (x : float) : (x <? 0) = true -> (0 <? x) = false.
Proof.
  rewrite !ltb_spec.
  change (Prim2SF 0) with (S754_zero false).
  destruct (Prim2SF x) as [sx|sx| |sx mx ex];
    unfold SFltb; simpl; try destruct sx; congruence.
Qed.

End DoubleSigns.

(** Unfolds the conversions of the provider down to the arithmetic. *)
Ltac unfold_conversions :=
  unfold TPCG4Time2Tick, TPCG4Time2TDC, OpticalG4Time2TDC, ExternalG4Time2TDC,
    TPCTDC2Tick, TPCTick2TDC, TPCTick2Time,
    OpticalTick2Time, ExternalTick2Time, OpticalTick2TrigTime,
    ExternalTick2TrigTime, OpticalTick2BeamTime, ExternalTick2BeamTime,
    TPCTick2BeamTime, TPCTick2TrigTime, Time2Tick, doTime2Tick, G4ToElecTime,
    TPCTime, doTPCTime, TriggerTime, BeamGateTime in *.

(** ** Successive events *)

Section Events.
Local Open Scope dbl_scope.

(** X1.  The trigger and beam gate times of an event replace those of the
    event before: two calls of [SetTriggerTime] in a row leave the provider
    as the second one alone does. *)
Theorem SetTriggerTime_overwrites :
  forall (s : DetectorClocksStandard float) (t1 b1 t2 b2 : float),
    SetTriggerTime (SetTriggerTime s t1 b1) t2 b2 = SetTriggerTime s t2 b2.
Proof. reflexivity. Qed.

(** X2.  [RebaseG4RefTime] reads the trigger time in force when it is called.
    After [SetTriggerTime] it uses the new trigger time; a [SetTriggerTime]
    that comes after it leaves [g4RefTime] at the value computed from the old
    trigger time, and [SetTriggerTime] alone never changes what
    [G4ToElecTime] returns. *)
Theorem RebaseG4RefTime_after_SetTriggerTime :
  forall (s : DetectorClocksStandard float) (trig_time beam_time sim : float),
    fG4RefTime (RebaseG4RefTime (SetTriggerTime s trig_time beam_time) sim)
    = fG4RefTimeDefault s - trig_time + sim /\
    fG4RefTime (SetTriggerTime (RebaseG4RefTime s sim) trig_time beam_time)
    = fG4RefTimeDefault s - TriggerTime s + sim /\
    (forall g4_time : float,
        G4ToElecTime (SetTriggerTime s trig_time beam_time) g4_time
        = G4ToElecTime s g4_time).
Proof. intros. repeat split. Qed.

(** X3.  [RebaseG4RefTime] changes [g4RefTime] and nothing else: the trigger
    and beam gate times, the four clocks, the recorded configuration and
    every conversion between ticks and times that does not start from a
    Geant4 time are as before. *)
Theorem RebaseG4RefTime_changes_only_G4RefTime :
  forall (s : DetectorClocksStandard float) (sim x : float) (sample frame : N),
    TriggerTime (RebaseG4RefTime s sim) = TriggerTime s /\
    BeamGateTime (RebaseG4RefTime s sim) = BeamGateTime s /\
    TPCClock (RebaseG4RefTime s sim) = TPCClock s /\
    OpticalClock (RebaseG4RefTime s sim) = OpticalClock s /\
    TriggerClock (RebaseG4RefTime s sim) = TriggerClock s /\
    ExternalClock (RebaseG4RefTime s sim) = ExternalClock s /\
    ConfigNames (RebaseG4RefTime s sim) = ConfigNames s /\
    ConfigValues (RebaseG4RefTime s sim) = ConfigValues s /\
    TriggerOffsetTPC (RebaseG4RefTime s sim) = TriggerOffsetTPC s /\
    TPCTime (RebaseG4RefTime s sim) = TPCTime s /\
    Time2Tick (RebaseG4RefTime s sim) x = Time2Tick s x /\
    TPCTick2TrigTime (RebaseG4RefTime s sim) x = TPCTick2TrigTime s x /\
    TPCTick2BeamTime (RebaseG4RefTime s sim) x = TPCTick2BeamTime s x /\
    TPCTick2Time (RebaseG4RefTime s sim) x = TPCTick2Time s x /\
    TPCTick2TDC (RebaseG4RefTime s sim) x = TPCTick2TDC s x /\
    TPCTDC2Tick (RebaseG4RefTime s sim) x = TPCTDC2Tick s x /\
    OpticalTick2TrigTime (RebaseG4RefTime s sim) x sample frame
    = OpticalTick2TrigTime s x sample frame /\
    OpticalTick2BeamTime (RebaseG4RefTime s sim) x sample frame
    = OpticalTick2BeamTime s x sample frame /\
    OpticalTick2Time (RebaseG4RefTime s sim) x sample frame
    = OpticalTick2Time s x sample frame /\
    ExternalTick2TrigTime (RebaseG4RefTime s sim) x sample frame
    = ExternalTick2TrigTime s x sample frame /\
    ExternalTick2BeamTime (RebaseG4RefTime s sim) x sample frame
    = ExternalTick2BeamTime s x sample frame /\
    ExternalTick2Time (RebaseG4RefTime s sim) x sample frame
    = ExternalTick2Time s x sample frame.
Proof. intros. repeat split. Qed.

(** X4.  The beam gate time enters the [Tick2BeamTime] conversions only: two
    events with the same trigger time and different beam gate times agree on
    [TPCTime], [Time2Tick], and on the [Tick2TrigTime], [Tick2Time] and TDC
    conversions, while [TPCTick2BeamTime] is [TPCTick2TrigTime] plus the
    trigger time minus the beam gate time given. *)
Theorem beam_gate_only_in_beam_times :
  forall (s : DetectorClocksStandard float) (trig_time b1 b2 x : float)
         (sample frame : N),
    TPCTime (SetTriggerTime s trig_time b1)
    = TPCTime (SetTriggerTime s trig_time b2) /\
    Time2Tick (SetTriggerTime s trig_time b1) x
    = Time2Tick (SetTriggerTime s trig_time b2) x /\
    TPCTick2TrigTime (SetTriggerTime s trig_time b1) x
    = TPCTick2TrigTime (SetTriggerTime s trig_time b2) x /\
    TPCTick2Time (SetTriggerTime s trig_time b1) x
    = TPCTick2Time (SetTriggerTime s trig_time b2) x /\
    TPCTick2TDC (SetTriggerTime s trig_time b1) x
    = TPCTick2TDC (SetTriggerTime s trig_time b2) x /\
    TPCTDC2Tick (SetTriggerTime s trig_time b1) x
    = TPCTDC2Tick (SetTriggerTime s trig_time b2) x /\
    OpticalTick2TrigTime (SetTriggerTime s trig_time b1) x sample frame
    = OpticalTick2TrigTime (SetTriggerTime s trig_time b2) x sample frame /\
    ExternalTick2TrigTime (SetTriggerTime s trig_time b1) x sample frame
    = ExternalTick2TrigTime (SetTriggerTime s trig_time b2) x sample frame /\
    TPCTick2BeamTime (SetTriggerTime s trig_time b1) x
    = TPCTick2TrigTime s x + trig_time - b1.
Proof. intros. repeat split. Qed.

(** X5.  The electronics time of a TPC tick moves with the trigger time:
    after [SetTriggerTime(trig_time, _)], [TPCTime()] is [trig_time] plus the
    unchanged trigger offset.  The electronics time of an optical or external
    tick is taken from sample and frame and does not depend on the trigger
    time. *)
Theorem tick_times_and_trigger :
  forall (s : DetectorClocksStandard float) (trig_time beam_time tick : float)
         (sample frame : N),
    TPCTime (SetTriggerTime s trig_time beam_time)
    = trig_time + TriggerOffsetTPC s /\
    TPCTick2Time (SetTriggerTime s trig_time beam_time) tick
    = trig_time + TriggerOffsetTPC s
      + tick * ElecClock.TickPeriod (fTPCClock s) /\
    OpticalTick2Time (SetTriggerTime s trig_time beam_time) tick sample frame
    = OpticalTick2Time s tick sample frame /\
    ExternalTick2Time (SetTriggerTime s trig_time beam_time) tick sample frame
    = ExternalTick2Time s tick sample frame.
Proof. intros. repeat split. Qed.

End Events.

(** ** The clock getters *)

Section ClockGetters.
Local Open Scope dbl_scope.

(** X6.  [TPCClock(time)], [OpticalClock(time)] and [TriggerClock(time)] are
    the provider's own clock with its time set to [time].  [ExternalClock(time)]
    is the External clock with its time set exactly when the Trigger and
    External clocks have the same frequency. *)
Theorem clock_getters_time :
  forall (s : DetectorClocksStandard float) (time : float),
    TPCClock_time s time = ElecClock.SetTime (TPCClock s) time /\
    OpticalClock_time s time = ElecClock.SetTime (OpticalClock s) time /\
    TriggerClock_time s time = ElecClock.SetTime (TriggerClock s) time /\
    (ExternalClock_time s time = ElecClock.SetTime (ExternalClock s) time <->
     ElecClock.Frequency (TriggerClock s)
     = ElecClock.Frequency (ExternalClock s)).
Proof.
  intros s time. repeat split.
  - intros Heq. apply (f_equal ElecClock.fFrequency) in Heq. exact Heq.
  - intros Heq. unfold ExternalClock_time, ElecClock.SetTime.
    unfold ElecClock.Frequency, TriggerClock, ExternalClock in Heq.
    unfold ElecClock.Frequency. now rewrite Heq.
Qed.

(** X7.  The clocks built from a sample and a frame number do not depend on
    the trigger time: [SetTriggerTime] leaves the result of the four
    [XClock(sample, frame)] getters unchanged.  Unlike [ExternalClock(time)],
    [ExternalClock(sample, frame)] runs at the External clock's own
    frequency. *)
Theorem clock_getters_at :
  forall (s : DetectorClocksStandard float) (trig_time beam_time : float)
         (sample frame : N),
    TPCClock_at (SetTriggerTime s trig_time beam_time) sample frame
    = TPCClock_at s sample frame /\
    OpticalClock_at (SetTriggerTime s trig_time beam_time) sample frame
    = OpticalClock_at s sample frame /\
    TriggerClock_at (SetTriggerTime s trig_time beam_time) sample frame
    = TriggerClock_at s sample frame /\
    ExternalClock_at (SetTriggerTime s trig_time beam_time) sample frame
    = ExternalClock_at s sample frame /\
    ElecClock.Frequency (ExternalClock_at s sample frame)
    = ElecClock.Frequency (ExternalClock s).
Proof. intros. repeat split. Qed.

End ClockGetters.

(** ** The recorded configuration values *)

Section RecordedValues.
Local Open Scope dbl_scope.

(** X8.  A defined [SetConfigValue(i, val)] overwrites entry [i] of the
    recorded values and nothing else: the other entries, the number of
    entries and the names are kept, and the parameters in use (the simulation
    time origin, the frame period, the trigger offset, the four clocks, the
    trigger and beam gate times) are not touched by it. *)
Theorem SetConfigValue_effect :
  forall (s s' : DetectorClocksStandard float) (i : nat) (val : float),
    SetConfigValue s i val = Some s' ->
    ConfigValues s' !! i = Some val /\
    (forall j : nat, j <> i -> ConfigValues s' !! j = ConfigValues s !! j) /\
    length (ConfigValues s') = length (ConfigValues s) /\
    ConfigNames s' = ConfigNames s /\
    fG4RefTime s' = fG4RefTime s /\
    fG4RefTimeDefault s' = fG4RefTimeDefault s /\
    fFramePeriod s' = fFramePeriod s /\
    fTriggerOffsetTPC s' = fTriggerOffsetTPC s /\
    TPCClock s' = TPCClock s /\ OpticalClock s' = OpticalClock s /\
    TriggerClock s' = TriggerClock s /\ ExternalClock s' = ExternalClock s /\
    TriggerTime s' = TriggerTime s /\ BeamGateTime s' = BeamGateTime s.
Proof.
  intros s s' i val Hset. unfold SetConfigValue in Hset.
  destruct (decide (i < length (fConfigValue s))%nat) as [Hi|Hi];
    [|discriminate].
  injection Hset as <-. unfold ConfigValues. cbn.
  split; [now apply list_lookup_insert_eq|].
  split; [intros j Hj; now apply list_lookup_insert_ne|].
  split; [apply length_insert|]. repeat split.
Qed.

(** Changing the recorded [ClockSpeedTPC] (entry 3) of the documented
    configuration to 2.5 leaves the TPC clock at 2 MHz. *)
Lemma SetConfigValue_effect_witness :
  exists s' : DetectorClocksStandard float,
    SetConfigValue clocks_us 3 2.5%float = Some s' /\
    ConfigValues s' !! 3%nat = Some 2.5%float /\
    ElecClock.Frequency (TPCClock s') = 2%float.
Proof.
  destruct (SetConfigValue clocks_us 3 2.5%float) as [s'|] eqn:Hset;
    [|discriminate Hset].
  exists s'. split; [reflexivity|].
  destruct (SetConfigValue_effect clocks_us s' 3 2.5%float Hset)
    as (Hi & _ & _ & _ & _ & _ & _ & _ & Htpc & _).
  split; [exact Hi|]. rewrite Htpc. reflexivity.
Defined.


End RecordedValues.

(** ** The sign of the trigger offset *)

Section OffsetSign.
Local Open Scope dbl_scope.

(** X10.  With a TPC clock of positive frequency, [TriggerOffsetTPC()] is
    never above zero in binary64, whatever the configured value: the TPC
    readout never starts after the trigger. *)
Theorem TriggerOffsetTPC_never_positive :
  forall s : DetectorClocksStandard float,
    (d0 <? ElecClock.Frequency (fTPCClock s)) = true ->
    (d0 <? TriggerOffsetTPC s) = false.
Proof.
  intros s Hf. unfold TriggerOffsetTPC. cbn in *.
  destruct (fTriggerOffsetTPC s <? 0)%float eqn:Hx.
  - now apply double_lt0_not_gt0.
  - now apply double_offset_not_positive.
Qed.

Lemma TriggerOffsetTPC_never_positive_witness :
  (d0 <? TriggerOffsetTPC clocks_ticks) = false /\
  (d0 <? TriggerOffsetTPC clocks_us) = false.
Proof.
  split.
  - apply (TriggerOffsetTPC_never_positive clocks_ticks). reflexivity.
  - apply (TriggerOffsetTPC_never_positive clocks_us). reflexivity.
Defined.

End OffsetSign.

(** ** Conversions without rounding

    The identities below relate the conversions to one another.  Each one
    takes several binary64 operations on either side, so it is stated for the
    rational reading of the code; in binary64 the two sides agree up to the
    rounding of those operations. *)

Section ExactConversions.
Local Open Scope dbl_scope.

(** X11.  The tick at which the trigger arrives.  With a nonzero TPC
    frequency and [TriggerOffsetTPC] configured as [x >= 0] ticks,
    [Time2Tick(TriggerTime())] is [x] and [TPCTick2TrigTime(x)] is 0; with
    [x < 0] microseconds, [Time2Tick(TriggerTime())] is [-x] times the
    frequency.  In binary64, the documented 3200 ticks at 2 MHz give tick
    3200 for the trigger at 100 us. *)
Theorem trigger_tick :
  (forall s : DetectorClocksStandard Qc,
      ElecClock.Frequency (fTPCClock s) <> d0 ->
      (fTriggerOffsetTPC s <? d0) = false ->
      Time2Tick s (TriggerTime s) = fTriggerOffsetTPC s /\
      TPCTick2TrigTime s (fTriggerOffsetTPC s) = d0) /\
  (forall s : DetectorClocksStandard Qc,
      ElecClock.Frequency (fTPCClock s) <> d0 ->
      (fTriggerOffsetTPC s <? d0) = true ->
      Time2Tick s (TriggerTime s)
      = - fTriggerOffsetTPC s * ElecClock.Frequency (fTPCClock s)) /\
  Time2Tick (SetTriggerTime clocks_ticks 100%float 50%float)
            (TriggerTime (SetTriggerTime clocks_ticks 100%float 50%float))
  = 3200%float.
Proof.
  split; [|split; [|reflexivity]]; intros s Hf Hx; unfold_conversions;
    unfold TriggerOffsetTPC, ElecClock.TickPeriod, ElecClock.Frequency in *;
    rewrite Hx;
    generalize dependent (ElecClock.fFrequency (fTPCClock s));
    generalize (fTriggerOffsetTPC s), (fTriggerTime s); cbn; intros.
  - split; field; repeat split; first [assumption | discriminate].
  - field; repeat split; first [assumption | discriminate].
Qed.

Lemma trigger_tick_witness :
  Time2Tick exact_ticks (TriggerTime exact_ticks) = Q2Qc 3200 /\
  Time2Tick exact_2500kHz (TriggerTime exact_2500kHz) = Q2Qc 4000.
Proof.
  split.
  - apply (proj1 trigger_tick exact_ticks); [discriminate | reflexivity].
  - rewrite (proj1 (proj2 trigger_tick) exact_2500kHz);
      [apply Qc_is_canon; reflexivity | discriminate | reflexivity].
Defined.



(** X13.  With a nonzero TPC tick period, [Time2Tick] and [TPCTick2Time] are
    inverse to each other, in both orders and for every tick and time. *)
Theorem TPC_tick_time_inverse :
  (forall (s : DetectorClocksStandard Qc) (tick : Qc),
      ElecClock.TickPeriod (fTPCClock s) <> d0 ->
      Time2Tick s (TPCTick2Time s tick) = tick) /\
  (forall (s : DetectorClocksStandard Qc) (time : Qc),
      ElecClock.TickPeriod (fTPCClock s) <> d0 ->
      TPCTick2Time s (Time2Tick s time) = time).
Proof.
  split; intros s x; unfold_conversions;
    generalize (TriggerOffsetTPC s), (ElecClock.TickPeriod (fTPCClock s)),
               (fTriggerTime s); cbn; intros off p trig Hp; field; exact Hp.
Qed.

Lemma TPC_tick_time_inverse_witness :
  Time2Tick exact_2500kHz (TPCTick2Time exact_2500kHz (Q2Qc (7 # 3)))
  = Q2Qc (7 # 3) /\
  TPCTick2Time exact_2500kHz (Time2Tick exact_2500kHz (Q2Qc (1 # 10)))
  = Q2Qc (1 # 10).
Proof.
  split.
  - apply (proj1 TPC_tick_time_inverse exact_2500kHz). discriminate.
  - apply (proj2 TPC_tick_time_inverse exact_2500kHz). discriminate.
Defined.

(** X14.  In each domain the electronics time of a tick is its time with
    respect to the trigger plus [TriggerTime()]. *)
Theorem Tick2Time_is_Tick2TrigTime_plus_trigger :
  forall (s : DetectorClocksStandard Qc) (tick : Qc) (sample frame : N),
    TPCTick2Time s tick = TPCTick2TrigTime s tick + TriggerTime s /\
    OpticalTick2Time s tick sample frame
    = OpticalTick2TrigTime s tick sample frame + TriggerTime s /\
    ExternalTick2Time s tick sample frame
    = ExternalTick2TrigTime s tick sample frame + TriggerTime s.
Proof.
  intros s tick sample frame. unfold_conversions.
  generalize (TriggerOffsetTPC s), (ElecClock.TickPeriod (fTPCClock s)),
             (ElecClock.TickPeriod (fOpticalClock s)),
             (ElecClock.Time_at (fOpticalClock s) sample frame),
             (ElecClock.TickPeriod (fExternalClock s)),
             (ElecClock.Time_at (fExternalClock s) sample frame),
             (fTriggerTime s).
  cbn. intros. repeat split; ring.
Qed.

(** X15.  A TDC count is an electronics time in units of the tick period:
    with nonzero tick periods, [TPCTick2TDC] times the TPC tick period is
    [TPCTick2Time], each domain's [G4Time2TDC] times that domain's tick
    period is [G4ToElecTime], and [TPCG4Time2Tick] is [TPCTDC2Tick] of
    [TPCG4Time2TDC]. *)
Theorem TDC_is_time_in_ticks :
  forall (s : DetectorClocksStandard Qc) (x : Qc),
    ElecClock.TickPeriod (fTPCClock s) <> d0 ->
    ElecClock.TickPeriod (fOpticalClock s) <> d0 ->
    ElecClock.TickPeriod (fExternalClock s) <> d0 ->
    TPCTick2TDC s x * ElecClock.TickPeriod (fTPCClock s) = TPCTick2Time s x /\
    TPCG4Time2TDC s x * ElecClock.TickPeriod (fTPCClock s) = G4ToElecTime s x /\
    OpticalG4Time2TDC s x * ElecClock.TickPeriod (fOpticalClock s)
    = G4ToElecTime s x /\
    ExternalG4Time2TDC s x * ElecClock.TickPeriod (fExternalClock s)
    = G4ToElecTime s x /\
    TPCG4Time2Tick s x = TPCTDC2Tick s (TPCG4Time2TDC s x).
Proof.
  intros s x. unfold_conversions.
  generalize (TriggerOffsetTPC s), (ElecClock.TickPeriod (fTPCClock s)),
             (ElecClock.TickPeriod (fOpticalClock s)),
             (ElecClock.TickPeriod (fExternalClock s)),
             (fTriggerTime s), (fG4RefTime s).
  cbn. intros off p p_opt p_ext trig g4 Hp Hopt Hext.
  repeat split; field; assumption.
Qed.

Lemma TDC_is_time_in_ticks_witness :
  TPCG4Time2Tick exact_2500kHz (Q2Qc 5000)
  = TPCTDC2Tick exact_2500kHz (TPCG4Time2TDC exact_2500kHz (Q2Qc 5000)).
Proof.
  apply (TDC_is_time_in_ticks exact_2500kHz (Q2Qc 5000)); discriminate.
Defined.

(** X16.  What a rebase does to the simulation times.  On a provider whose
    [g4RefTime] is the configured default, [RebaseG4RefTime(sim_trig_time)]
    moves every [G4ToElecTime] by [TriggerTime() - sim_trig_time]; rebasing
    on the trigger time itself changes nothing. *)
Theorem RebaseG4RefTime_shift :
  forall (s : DetectorClocksStandard Qc) (sim_trig_time g4_time : Qc),
    fG4RefTime s = fG4RefTimeDefault s ->
    G4ToElecTime (RebaseG4RefTime s sim_trig_time) g4_time
    = G4ToElecTime s g4_time + (TriggerTime s - sim_trig_time) /\
    G4ToElecTime (RebaseG4RefTime s (TriggerTime s)) g4_time
    = G4ToElecTime s g4_time.
Proof.
  intros s sim g Hdef. unfold RebaseG4RefTime. unfold_conversions. cbn.
  rewrite Hdef.
  generalize (fG4RefTimeDefault s), (fTriggerTime s). intros. split; ring.
Qed.

Lemma RebaseG4RefTime_shift_witness :
  G4ToElecTime (RebaseG4RefTime (SetTriggerTime exact_ticks (Q2Qc 100) (Q2Qc 50))
                                (Q2Qc 90))
               (Q2Qc 5000)
  = G4ToElecTime (SetTriggerTime exact_ticks (Q2Qc 100) (Q2Qc 50)) (Q2Qc 5000)
    + (Q2Qc 100 - Q2Qc 90).
Proof.
  apply (RebaseG4RefTime_shift
           (SetTriggerTime exact_ticks (Q2Qc 100) (Q2Qc 50)) (Q2Qc 90)
           (Q2Qc 5000)).
  reflexivity.
Defined.

End ExactConversions.
